(** * fetch-events.py: a shallow embedding and its specification

    The script [calendar-helper/fetch-events.py] reads three command-line
    arguments, looks a calendar up by title in the EventKit store, asks the
    store for the events of a window around the current time and prints them
    as a JSON array.

    The embedding keeps the script's shape: [main] is written in a small
    monad that threads the process state (the two output streams, the number
    of clock readings, the log of store calls) and that ends normally, by
    [sys.exit], or by an exception nobody catches. *)

From Stdlib Require Import String Ascii ZArith List Lia Bool DecimalString.
Import ListNotations.

Set Warnings "-register-all".

Local Open Scope string_scope.
Local Open Scope Z_scope.

(** ** Python side: exceptions, JSON values, the library *)

Inductive pyexc : Type :=
| ValueError
| IndexError
| OverflowError
| OSError.

(** What [json.dumps] is given: Python's [None], [bool], [float], [str],
    [list] and [dict]; a dict literal keeps the order of its keys. *)
Inductive json (F : Type) : Type :=
| JNull
| JBool (b : bool)
| JFloat (x : F)
| JStr (s : string)
| JArr (items : list (json F))
| JObj (members : list (string * json F)).

Arguments JNull {F}.
Arguments JBool {F} b.
Arguments JFloat {F} x.
Arguments JStr {F} s.
Arguments JArr {F} items.
Arguments JObj {F} members.

(** The parts of the Python library the script calls and that are not
    written out here: the type of floats, [int] on a string ([None] stands
    for the [ValueError] it raises) and [json.dumps]. *)
Class PyLib : Type := {
  float : Type;
  py_int : string -> option Z;
  json_dumps : json float -> string
}.

(** [d[k]] and [d.keys()] on a JSON object. *)
Fixpoint assoc_get {A : Type} (k : string) (l : list (string * A)) : option A :=
  match l with
  | [] => None
  | (k', v) :: rest => if String.eqb k k' then Some v else assoc_get k rest
  end.

Definition json_get {F : Type} (k : string) (j : json F) : option (json F) :=
  match j with
  | JObj members => assoc_get k members
  | _ => None
  end.

Definition json_keys {F : Type} (j : json F) : list string :=
  match j with
  | JObj members => map fst members
  | _ => []
  end.

(** ** An instance of the library, to run the script on concrete inputs

    [int] on ASCII text (blanks around, a sign, decimal digits, single
    underscores between digits), floats that are whole numbers of seconds
    (below 10^16, which [repr] writes without exponent), and [json.dumps]
    with its default separators and ASCII escapes; a character stands for
    the code point of its number. *)
Module Sample.

Definition is_space (c : ascii) : bool :=
  let n := nat_of_ascii c in
  ((9 <=? n) && (n <=? 13) || (28 <=? n) && (n <=? 32))%nat.

Fixpoint lstrip (s : string) : string :=
  match s with
  | String c rest => if is_space c then lstrip rest else s
  | EmptyString => EmptyString
  end.

Fixpoint rstrip (s : string) : string :=
  match s with
  | String c rest =>
      let rest' := rstrip rest in
      if is_space c && String.eqb rest' "" then "" else String c rest'
  | EmptyString => EmptyString
  end.

Definition digit_of (c : ascii) : option Z :=
  let n := nat_of_ascii c in
  if ((48 <=? n) && (n <=? 57))%nat then Some (Z.of_nat (n - 48)) else None.

(** [after_digit] tells whether the previous character was a digit: an
    underscore is read only there, and the text cannot end on one. *)
Fixpoint digits (s : string) (acc : Z) (after_digit : bool) : option Z :=
  match s with
  | EmptyString => if after_digit then Some acc else None
  | String c rest =>
      match digit_of c with
      | Some d => digits rest (10 * acc + d) true
      | None =>
          if Ascii.eqb c "_" && after_digit then digits rest acc false else None
      end
  end.

Definition int_of_str (s : string) : option Z :=
  match lstrip (rstrip s) with
  | String "-" rest => option_map Z.opp (digits rest 0 false)
  | String "+" rest => digits rest 0 false
  | body => digits body 0 false
  end.

Definition decimal (z : Z) : string := NilZero.string_of_int (Z.to_int z).

Definition float_repr (x : Z) : string := decimal x ++ ".0".

Definition hex_digit (n : nat) : ascii :=
  if (n <? 10)%nat then ascii_of_nat (48 + n) else ascii_of_nat (87 + n).

Definition dquote : string := String (ascii_of_nat 34) "".

Definition escape_char (c : ascii) : string :=
  let n := nat_of_ascii c in
  if (n =? 34)%nat then "\" ++ dquote
  else if (n =? 92)%nat then "\\"
  else if (n =? 8)%nat then "\b"
  else if (n =? 9)%nat then "\t"
  else if (n =? 10)%nat then "\n"
  else if (n =? 12)%nat then "\f"
  else if (n =? 13)%nat then "\r"
  else if ((32 <=? n) && (n <=? 126))%nat then String c ""
  else "\u00" ++ String (hex_digit (n / 16)) (String (hex_digit (n mod 16)) "").

Fixpoint escape (s : string) : string :=
  match s with
  | String c rest => escape_char c ++ escape rest
  | EmptyString => EmptyString
  end.

Definition quote (s : string) : string := dquote ++ escape s ++ dquote.

Fixpoint dumps (j : json Z) : string :=
  match j with
  | JNull => "null"
  | JBool true => "true"
  | JBool false => "false"
  | JFloat x => float_repr x
  | JStr s => quote s
  | JArr items => "[" ++ String.concat ", " (map dumps items) ++ "]"
  | JObj members =>
      "{" ++ String.concat ", "
               (map (fun '(k, v) => quote k ++ ": " ++ dumps v) members) ++ "}"
  end.

Definition lib : PyLib :=
  {| float := Z; py_int := int_of_str; json_dumps := dumps |}.

End Sample.

(** ** datetime

    A naive [datetime] is the number of microseconds since
    0001-01-01T00:00:00; the last one is 9999-12-31T23:59:59.999999, day
    3652059 of the proleptic calendar.  A [timedelta] is a number of
    microseconds, of at most 999999999 days either way. *)

Definition datetime : Type := Z.
Definition timedelta_t : Type := Z.

Definition us_per_day : Z := 86400000000.
Definition max_delta_days : Z := 999999999.
Definition max_ordinal : Z := 3652059.

Definition datetime_ok (t : Z) : bool :=
  (0 <=? t) && (t <? max_ordinal * us_per_day).

(** ** EventKit side *)

Record EKSource : Type := {
  source_title : option string
}.

Record EKCalendar : Type := {
  calendarIdentifier : string;
  cal_title : option string;
  cal_source : option EKSource
}.

Record NSURL : Type := {
  absoluteString : string
}.

Inductive NSError : Type :=
| NSError_code (domain : string) (code : Z).

(** How a Python computation ends: with a value, by [sys.exit(code)], or by
    an exception that nothing catches. *)
Inductive outcome (A : Type) : Type :=
| Normal (a : A)
| SystemExit (code : Z)
| Uncaught (e : pyexc).

Arguments Normal {A} a.
Arguments SystemExit {A} code.
Arguments Uncaught {A} e.

Section WithLib.

Context {L : PyLib}.

Record NSDate : Type := {
  timeIntervalSince1970 : float
}.

Record EKEvent : Type := {
  eventIdentifier : option string;
  ev_title : option string;
  startDate : NSDate;
  endDate : NSDate;
  isAllDay : bool;
  location : option string;
  notes : option string;
  URL : option NSURL
}.

Record NSPredicate : Type := {
  pred_start : NSDate;
  pred_end : NSDate;
  pred_calendars : list EKCalendar
}.

(** The store as the script sees it: the calendars of event type, in the
    store's order; its answer to a query; and what the framework hands to
    the completion callback of the access request ([None]: nothing before
    the process ends). *)
Record EKEventStore : Type := {
  store_calendars : list EKCalendar;
  store_events : NSPredicate -> list EKEvent;
  access_reply : option (bool * option NSError)
}.

(** Everything the script reads from its host: the store, the successive
    readings of the local wall clock, and [datetime.timestamp] for the local
    time zone (which may raise). *)
Record Host : Type := {
  host_store : EKEventStore;
  wall_clock : nat -> datetime;
  local_timestamp : datetime -> pyexc + float
}.

(** ** The process *)

Inductive store_call : Type :=
| StoreInit
| RequestAccess
| CalendarsForEntityType
| PredicateForEvents (p : NSPredicate)
| EventsMatchingPredicate (p : NSPredicate).

Record Proc : Type := {
  stdout : string;
  stderr : string;
  clock_reads : nat;
  store_calls : list store_call
}.

Definition start : Proc :=
  {| stdout := ""; stderr := ""; clock_reads := 0%nat; store_calls := [] |}.

Definition py (A : Type) : Type := Proc -> Proc * outcome A.

Definition ret {A : Type} (a : A) : py A := fun p => (p, Normal a).

Definition bind {A B : Type} (m : py A) (k : A -> py B) : py B :=
  fun p =>
    match m p with
    | (p', Normal a) => k a p'
    | (p', SystemExit c) => (p', SystemExit c)
    | (p', Uncaught e) => (p', Uncaught e)
    end.

Definition raise {A : Type} (e : pyexc) : py A := fun p => (p, Uncaught e).

Definition sys_exit {A : Type} (code : Z) : py A := fun p => (p, SystemExit code).

Notation "x <- c1 ;; c2" := (bind c1 (fun x => c2))
  (at level 61, c1 at next level, right associativity).
Notation "c1 ;; c2" := (bind c1 (fun _ => c2))
  (at level 61, right associativity).

Definition newline : string := String (ascii_of_nat 10) "".

(** [print(s)] and [print(s, file=sys.stderr)]. *)
Definition print (s : string) : py unit :=
  fun p =>
    ({| stdout := stdout p ++ s ++ newline;
        stderr := stderr p;
        clock_reads := clock_reads p;
        store_calls := store_calls p |}, Normal tt).

Definition print_stderr (s : string) : py unit :=
  fun p =>
    ({| stdout := stdout p;
        stderr := stderr p ++ s ++ newline;
        clock_reads := clock_reads p;
        store_calls := store_calls p |}, Normal tt).

(** [sys.argv[i]] and [int(s)]. *)
Definition argv_at (argv : list string) (i : nat) : py string :=
  match nth_error argv i with
  | Some s => ret s
  | None => raise IndexError
  end.

Definition int (s : string) : py Z :=
  match py_int s with
  | Some n => ret n
  | None => raise ValueError
  end.

(** [datetime.now()]: one more reading of the wall clock. *)
Definition datetime_now (h : Host) : py datetime :=
  fun p =>
    ({| stdout := stdout p;
        stderr := stderr p;
        clock_reads := S (clock_reads p);
        store_calls := store_calls p |},
     Normal (wall_clock h (clock_reads p))).

(** [timedelta(days=n)], [d - delta], [d + delta] and [d.timestamp()]. *)
Definition timedelta (days : Z) : py timedelta_t :=
  if Z.abs days <=? max_delta_days then ret (days * us_per_day)
  else raise OverflowError.

Definition datetime_add (d : datetime) (delta : timedelta_t) : py datetime :=
  if datetime_ok (d + delta) then ret (d + delta) else raise OverflowError.

Definition datetime_sub (d : datetime) (delta : timedelta_t) : py datetime :=
  datetime_add d (- delta).

Definition timestamp (h : Host) (d : datetime) : py float :=
  match local_timestamp h d with
  | inr x => ret x
  | inl e => raise e
  end.

Definition dateWithTimeIntervalSince1970_ (x : float) : NSDate :=
  {| timeIntervalSince1970 := x |}.

(** The store's methods; each call is logged.  The completion callback of
    the access request runs when the framework has something to hand it;
    the script never waits for it. *)
Definition call (c : store_call) : py unit :=
  fun p =>
    ({| stdout := stdout p;
        stderr := stderr p;
        clock_reads := clock_reads p;
        store_calls := (store_calls p ++ [c])%list |}, Normal tt).

Definition EKEventStore_alloc_init (h : Host) : py EKEventStore :=
  call StoreInit ;; ret (host_store h).

Definition requestAccessToEntityType_completion_ (store : EKEventStore)
    (completion : bool -> option NSError -> py unit) : py unit :=
  call RequestAccess ;;
  match access_reply store with
  | Some (granted, error) => completion granted error
  | None => ret tt
  end.

Definition calendarsForEntityType_ (store : EKEventStore) : py (list EKCalendar) :=
  call CalendarsForEntityType ;; ret (store_calendars store).

Definition predicateForEventsWithStartDate_endDate_calendars_
    (store : EKEventStore) (s e : NSDate) (cals : list EKCalendar) : py NSPredicate :=
  let p := {| pred_start := s; pred_end := e; pred_calendars := cals |} in
  call (PredicateForEvents p) ;; ret p.

Definition eventsMatchingPredicate_ (store : EKEventStore) (p : NSPredicate)
  : py (list EKEvent) :=
  call (EventsMatchingPredicate p) ;; ret (store_events store p).

(** ** The script *)

(** [x or ""] on an optional string: [None] and [""] are both false. *)
Definition or_str (x : option string) (dflt : string) : string :=
  match x with
  | Some s => if String.eqb s "" then dflt else s
  | None => dflt
  end.

(** A string the bridge may give as [None]. *)
Definition json_of_str (x : option string) : json float :=
  match x with
  | Some s => JStr s
  | None => JNull
  end.

(** [cal.title() == calendar_name]. *)
Definition title_is (cal : EKCalendar) (calendar_name : string) : bool :=
  match cal_title cal with
  | Some t => String.eqb t calendar_name
  | None => false
  end.

(** Lines 31-35: the loop that stops at the first calendar of that title. *)
Fixpoint find_calendar (calendar_name : string) (calendars : list EKCalendar)
  : option EKCalendar :=
  match calendars with
  | [] => None
  | cal :: rest =>
      if title_is cal calendar_name then Some cal
      else find_calendar calendar_name rest
  end.

(** Lines 70-74. *)
Definition calendar_record (target_cal : EKCalendar) : json float :=
  JObj [ ("id", json_of_str (cal_title target_cal));
         ("title", json_of_str (cal_title target_cal));
         ("source", match cal_source target_cal with
                    | Some src => json_of_str (source_title src)
                    | None => JStr "Unknown"
                    end) ].

(** Lines 61-75. *)
Definition event_record (target_cal : EKCalendar) (event : EKEvent) : json float :=
  JObj [ ("id", json_of_str (eventIdentifier event));
         ("title", JStr (or_str (ev_title event) ""));
         ("startDate", JFloat (timeIntervalSince1970 (startDate event)));
         ("endDate", JFloat (timeIntervalSince1970 (endDate event)));
         ("isAllDay", JBool (isAllDay event));
         ("location", JStr (or_str (location event) ""));
         ("notes", JStr (or_str (notes event) ""));
         ("url", match URL event with
                 | Some u => JStr (absoluteString u)
                 | None => JStr ""
                 end);
         ("calendar", calendar_record target_cal) ].

(** Lines 59-75: [result.append] once per event. *)
Definition convert (target_cal : EKCalendar) (events : list EKEvent)
  : list (json float) :=
  fold_left (fun result event => (result ++ [event_record target_cal event])%list)
    events [].

(** Lines 24-25. *)
Definition access_callback (granted : bool) (error : option NSError) : py unit :=
  ret tt.

Definition usage : string :=
  "Usage: fetch-events.py <calendar_name> <days_back> <days_ahead>".

Definition not_found (calendar_name : string) : json float :=
  JObj [ ("error", JStr ("Calendar '" ++ calendar_name ++ "' not found")) ].

(** Lines 11-77.  [target_cal] is [None] or a calendar object, which is
    true: [if not target_cal] is the [None] case of the lookup. *)
Definition main (h : Host) (argv : list string) : py unit :=
  (if (length argv <? 4)%nat then
     print_stderr usage ;; sys_exit 1
   else ret tt) ;;
  calendar_name <- argv_at argv 1 ;;
  arg2 <- argv_at argv 2 ;;
  days_back <- int arg2 ;;
  arg3 <- argv_at argv 3 ;;
  days_ahead <- int arg3 ;;
  store <- EKEventStore_alloc_init h ;;
  requestAccessToEntityType_completion_ store access_callback ;;
  calendars <- calendarsForEntityType_ store ;;
  match find_calendar calendar_name calendars with
  | None =>
      print (json_dumps (not_found calendar_name)) ;; sys_exit 1
  | Some target_cal =>
      now <- datetime_now h ;;
      back <- timedelta days_back ;;
      start_date <- datetime_sub now back ;;
      ahead <- timedelta days_ahead ;;
      end_date <- datetime_add now ahead ;;
      start_ts <- timestamp h start_date ;;
      let start_ns := dateWithTimeIntervalSince1970_ start_ts in
      end_ts <- timestamp h end_date ;;
      let end_ns := dateWithTimeIntervalSince1970_ end_ts in
      predicate <- predicateForEventsWithStartDate_endDate_calendars_
                     store start_ns end_ns [target_cal] ;;
      events <- eventsMatchingPredicate_ store predicate ;;
      let result := convert target_cal events in
      print (json_dumps (JArr result))
  end.

(** ** Running the script

    What the caller of [python3 fetch-events.py ...] observes: the two
    streams as the script wrote them, the exception whose traceback the
    interpreter adds to standard error when nothing caught it, the exit
    status, and what the store and the clock were asked. *)
Record Run : Type := {
  run_stdout : string;
  run_stderr : string;
  run_traceback : option pyexc;
  run_status : Z;
  run_calls : list store_call;
  run_clock_reads : nat
}.

Definition python3 (h : Host) (argv : list string) : Run :=
  let '(p, r) := main h argv start in
  {| run_stdout := stdout p;
     run_stderr := stderr p;
     run_traceback := match r with Uncaught e => Some e | _ => None end;
     run_status := match r with
                   | Normal _ => 0
                   | SystemExit code => code
                   | Uncaught _ => 1
                   end;
     run_calls := store_calls p;
     run_clock_reads := clock_reads p |}.

(** ** Vocabulary of the statements *)

(** The three store calls every run makes once its arguments are read. *)
Definition lookup_calls : list store_call :=
  [StoreInit; RequestAccess; CalendarsForEntityType].

(** The predicate built for the window from [s] to [e] on [target_cal]. *)
Definition query (target_cal : EKCalendar) (s e : float) : NSPredicate :=
  {| pred_start := dateWithTimeIntervalSince1970_ s;
     pred_end := dateWithTimeIntervalSince1970_ e;
     pred_calendars := [target_cal] |}.

(** The date arithmetic of lines 42-48 goes through: both [timedelta]s are
    representable, both dates are between the years 1 and 9999, and the
    platform gives their timestamps, [s] and [e]. *)
Definition representable (h : Host) (days_back days_ahead : Z) (s e : float) : Prop :=
  Z.abs days_back <= max_delta_days
  /\ Z.abs days_ahead <= max_delta_days
  /\ datetime_ok (wall_clock h 0 - days_back * us_per_day) = true
  /\ datetime_ok (wall_clock h 0 + days_ahead * us_per_day) = true
  /\ local_timestamp h (wall_clock h 0 - days_back * us_per_day) = inr s
  /\ local_timestamp h (wall_clock h 0 + days_ahead * us_per_day) = inr e.

(** The same host, with another delivery to the access callback. *)
Definition with_reply (reply : option (bool * option NSError)) (h : Host) : Host :=
  {| host_store :=
       {| store_calendars := store_calendars (host_store h);
          store_events := store_events (host_store h);
          access_reply := reply |};
     wall_clock := wall_clock h;
     local_timestamp := local_timestamp h |}.

(** The same calendar, under another store identifier. *)
Definition with_identifier (identifier : string) (cal : EKCalendar) : EKCalendar :=
  {| calendarIdentifier := identifier;
     cal_title := cal_title cal;
     cal_source := cal_source cal |}.

(** The same host, with another list of calendars in the store. *)
Definition with_calendars (calendars : list EKCalendar) (h : Host) : Host :=
  {| host_store :=
       {| store_calendars := calendars;
          store_events := store_events (host_store h);
          access_reply := access_reply (host_store h) |};
     wall_clock := wall_clock h;
     local_timestamp := local_timestamp h |}.

(** The keys of an event's record, in the order of the dict literal. *)
Definition event_keys : list string :=
  ["id"; "title"; "startDate"; "endDate"; "isAllDay"; "location"; "notes";
   "url"; "calendar"].

End WithLib.

(** ** A host to run the script on

    Three calendars, two of them titled Work, and two events in the first
    Work calendar, of which a query gets those that overlap its window; the
    clock stands at 2026-11-04T09:30:00 and the time zone is UTC. *)
Module Demo.

#[local] Existing Instance Sample.lib.

Definition icloud : EKSource := {| source_title := Some "iCloud" |}.

Definition home : EKCalendar :=
  {| calendarIdentifier := "A1"; cal_title := Some "Home"; cal_source := Some icloud |}.

Definition work : EKCalendar :=
  {| calendarIdentifier := "B2"; cal_title := Some "Work"; cal_source := None |}.

Definition work_again : EKCalendar :=
  {| calendarIdentifier := "C3"; cal_title := Some "Work"; cal_source := Some icloud |}.

Definition at_seconds (x : Z) : NSDate := {| timeIntervalSince1970 := x |}.

Definition holiday : EKEvent :=
  {| eventIdentifier := Some "E-1";
     ev_title := Some "Holiday";
     startDate := at_seconds 1794268800;
     endDate := at_seconds 1794355200;
     isAllDay := true;
     location := None;
     notes := None;
     URL := None |}.

Definition standup : EKEvent :=
  {| eventIdentifier := Some "E-2";
     ev_title := None;
     startDate := at_seconds 1793784600;
     endDate := at_seconds 1793785500;
     isAllDay := false;
     location := Some "Room 4";
     notes := Some "";
     URL := Some {| absoluteString := "https://example.org/standup" |} |}.

Definition overlaps (p : NSPredicate) (event : EKEvent) : bool :=
  (timeIntervalSince1970 (startDate event) <=? timeIntervalSince1970 (pred_end p))
  && (timeIntervalSince1970 (pred_start p) <=? timeIntervalSince1970 (endDate event)).

Definition events_of (p : NSPredicate) : list EKEvent :=
  match pred_calendars p with
  | [cal] =>
      if String.eqb (calendarIdentifier cal) "B2"
      then filter (overlaps p) [holiday; standup]
      else []
  | _ => []
  end.

Definition epoch : Z := 719162 * us_per_day.

Definition utc_timestamp (d : datetime) : pyexc + Z := inr ((d - epoch) / 1000000).

Definition host : Host :=
  {| host_store :=
       {| store_calendars := [home; work; work_again];
          store_events := events_of;
          access_reply := Some (false, Some (NSError_code "EKErrorDomain" 29)) |};
     wall_clock := fun _ => 63929381400000000;
     local_timestamp := utc_timestamp |}.

Definition argv : list string := ["fetch-events.py"; "Work"; "7"; "14"].

Definition argv_reversed : list string := ["fetch-events.py"; "Work"; "-3"; "1"].

Definition argv_unknown : list string := ["fetch-events.py"; "Nope"; "7"; "14"].

Definition argv_bad_int : list string := ["fetch-events.py"; "Nope"; "abc"; "1"].

Definition argv_short : list string := ["fetch-events.py"; "Work"; "7"].

End Demo.

(** * Properties *)

Section Properties.

Context {L : PyLib}.

(** ** The two loops *)

Lemma convert_from (target_cal : EKCalendar) (events : list EKEvent)
    (result : list (json float)) :
  fold_left (fun result event => (result ++ [event_record target_cal event])%list)
    events result
  = (result ++ map (event_record target_cal) events)%list.
Proof.
  revert result.
  induction events as [|event events IH]; intros result; simpl.
  - now rewrite app_nil_r.
  - rewrite IH, <- app_assoc. reflexivity.
Qed.

Lemma convert_map (target_cal : EKCalendar) (events : list EKEvent) :
  convert target_cal events = map (event_record target_cal) events.
Proof. unfold convert. now rewrite convert_from. Qed.

Lemma title_is_true (cal : EKCalendar) (calendar_name : string) :
  title_is cal calendar_name = true <-> cal_title cal = Some calendar_name.
Proof.
  unfold title_is. destruct (cal_title cal) as [t|].
  - rewrite String.eqb_eq. split; congruence.
  - split; discriminate.
Qed.

Lemma title_is_false (cal : EKCalendar) (calendar_name : string) :
  title_is cal calendar_name = false <-> cal_title cal <> Some calendar_name.
Proof.
  rewrite <- title_is_true. destruct (title_is cal calendar_name); split;
    congruence.
Qed.

Lemma find_calendar_none (calendar_name : string) (calendars : list EKCalendar) :
  find_calendar calendar_name calendars = None
  <-> Forall (fun cal => cal_title cal <> Some calendar_name) calendars.
Proof.
  induction calendars as [|cal rest IH]; simpl.
  - split; auto.
  - destruct (title_is cal calendar_name) eqn:E.
    + split; [discriminate|].
      intros H. inversion H as [|? ? Hcal _]; subst.
      apply title_is_true in E. contradiction.
    + rewrite IH. apply title_is_false in E. split.
      * intros H. now constructor.
      * intros H. now inversion H.
Qed.

Lemma find_calendar_some (calendar_name : string) (calendars : list EKCalendar)
    (target_cal : EKCalendar) :
  find_calendar calendar_name calendars = Some target_cal
  <-> exists before after,
        calendars = (before ++ target_cal :: after)%list
        /\ cal_title target_cal = Some calendar_name
        /\ Forall (fun cal => cal_title cal <> Some calendar_name) before.
Proof.
  induction calendars as [|cal rest IH]; simpl.
  - split; [discriminate|].
    intros (before & after & H & _). now destruct before.
  - destruct (title_is cal calendar_name) eqn:E.
    + apply title_is_true in E. split.
      * intros H; injection H as <-. exists [], rest. auto.
      * intros (before & after & H & Ht & Hb).
        destruct before as [|b before]; simpl in H; injection H as <- _.
        -- reflexivity.
        -- inversion Hb; subst. contradiction.
    + apply title_is_false in E. rewrite IH. split.
      * intros (before & after & -> & Ht & Hb).
        exists (cal :: before), after. repeat split; auto.
      * intros (before & after & H & Ht & Hb).
        destruct before as [|b before]; simpl in H; injection H as <- ->.
        -- contradiction.
        -- exists before, after. inversion Hb; subst. auto.
Qed.


(** ** The paths of the script *)

Ltac step :=
  unfold python3, main, int, argv_at, EKEventStore_alloc_init,
    requestAccessToEntityType_completion_, calendarsForEntityType_,
    predicateForEventsWithStartDate_endDate_calendars_,
    eventsMatchingPredicate_, access_callback, datetime_now, timedelta,
    datetime_sub, datetime_add, timestamp, print, print_stderr, call,
    sys_exit, raise, bind, ret, start;
  cbn [nth_error length Nat.ltb Nat.leb fst snd stdout stderr clock_reads
       store_calls].

Ltac crunch :=
  cbv beta iota zeta;
  cbn [stdout stderr clock_reads store_calls app].

Lemma run_usage (h : Host) (argv : list string) :
  (length argv < 4)%nat ->
  python3 h argv
  = {| run_stdout := "";
       run_stderr := usage ++ newline;
       run_traceback := None;
       run_status := 1;
       run_calls := [];
       run_clock_reads := 0 |}.
Proof.
  intros Hlen. apply Nat.ltb_lt in Hlen.
  unfold python3, main, bind. rewrite Hlen. reflexivity.
Qed.

Lemma run_bad_int (h : Host) (prog calendar_name arg2 arg3 : string)
    (rest : list string) :
  py_int arg2 = None \/ py_int arg3 = None ->
  python3 h (prog :: calendar_name :: arg2 :: arg3 :: rest)
  = {| run_stdout := "";
       run_stderr := "";
       run_traceback := Some ValueError;
       run_status := 1;
       run_calls := [];
       run_clock_reads := 0 |}.
Proof.
  intros H. step.
  destruct (py_int arg2) as [days_back|]; [|reflexivity].
  destruct H as [H|H]; [discriminate|]. rewrite H. reflexivity.
Qed.


Lemma run_not_found (h : Host) (prog calendar_name arg2 arg3 : string)
    (rest : list string) (days_back days_ahead : Z) :
  py_int arg2 = Some days_back ->
  py_int arg3 = Some days_ahead ->
  find_calendar calendar_name (store_calendars (host_store h)) = None ->
  python3 h (prog :: calendar_name :: arg2 :: arg3 :: rest)
  = {| run_stdout := json_dumps (not_found calendar_name) ++ newline;
       run_stderr := "";
       run_traceback := None;
       run_status := 1;
       run_calls := lookup_calls;
       run_clock_reads := 0 |}.
Proof.
  intros H2 H3 Hfind. step. rewrite H2, H3.
  destruct (access_reply (host_store h)) as [[granted error]|];
    rewrite Hfind; reflexivity.
Qed.

Lemma run_found (h : Host) (prog calendar_name arg2 arg3 : string)
    (rest : list string) (days_back days_ahead : Z) (target_cal : EKCalendar)
    (s e : float) :
  py_int arg2 = Some days_back ->
  py_int arg3 = Some days_ahead ->
  find_calendar calendar_name (store_calendars (host_store h)) = Some target_cal ->
  representable h days_back days_ahead s e ->
  python3 h (prog :: calendar_name :: arg2 :: arg3 :: rest)
  = {| run_stdout :=
         json_dumps
           (JArr (map (event_record target_cal)
                    (store_events (host_store h) (query target_cal s e))))
         ++ newline;
       run_stderr := "";
       run_traceback := None;
       run_status := 0;
       run_calls :=
         (lookup_calls
          ++ [PredicateForEvents (query target_cal s e);
              EventsMatchingPredicate (query target_cal s e)])%list;
       run_clock_reads := 1 |}.
Proof.
  intros H2 H3 Hfind (Hb & Ha & Hs & He & Hts & Hte). step. rewrite H2, H3.
  apply Z.leb_le in Hb, Ha. unfold Z.sub in Hs, Hts.
  destruct (access_reply (host_store h)) as [[granted error]|];
    rewrite Hfind; crunch;
    rewrite Hb; crunch; rewrite Hs; crunch; rewrite Ha; crunch;
    rewrite He; crunch; rewrite Hts; crunch; rewrite Hte; crunch;
    rewrite convert_map; reflexivity.
Qed.

(** When the date arithmetic does not go through, the run ends on the
    library's exception after the lookup and one clock reading, before any
    query. *)
Lemma run_found_raises (h : Host) (prog calendar_name arg2 arg3 : string)
    (rest : list string) (days_back days_ahead : Z) (target_cal : EKCalendar) :
  py_int arg2 = Some days_back ->
  py_int arg3 = Some days_ahead ->
  find_calendar calendar_name (store_calendars (host_store h)) = Some target_cal ->
  (forall s e, ~ representable h days_back days_ahead s e) ->
  exists exc,
    python3 h (prog :: calendar_name :: arg2 :: arg3 :: rest)
    = {| run_stdout := "";
         run_stderr := "";
         run_traceback := Some exc;
         run_status := 1;
         run_calls := lookup_calls;
         run_clock_reads := 1 |}.
Proof.
  intros H2 H3 Hfind Hno. step. rewrite H2, H3.
  assert (Hreply : forall T (a : T),
             match access_reply (host_store h) with
             | Some (_, _) => a
             | None => a
             end = a).
  { intros. now destruct (access_reply (host_store h)) as [[? ?]|]. }
  rewrite Hreply, Hfind. crunch.
  destruct (Z.abs days_back <=? max_delta_days) eqn:Eb;
    [crunch|eexists; reflexivity].
  destruct (datetime_ok (wall_clock h 0 + - (days_back * us_per_day))) eqn:Es;
    [crunch|eexists; reflexivity].
  destruct (Z.abs days_ahead <=? max_delta_days) eqn:Ea;
    [crunch|eexists; reflexivity].
  destruct (datetime_ok (wall_clock h 0 + days_ahead * us_per_day)) eqn:Ee;
    [crunch|eexists; reflexivity].
  destruct (local_timestamp h (wall_clock h 0 + - (days_back * us_per_day)))
    as [exc|s] eqn:Ets; [eexists; reflexivity|crunch].
  destruct (local_timestamp h (wall_clock h 0 + days_ahead * us_per_day))
    as [exc|e] eqn:Ete; [eexists; reflexivity|].
  exfalso. apply (Hno s e). apply Z.leb_le in Eb, Ea.
  repeat split; assumption.
Qed.


Lemma representable_dec (h : Host) (days_back days_ahead : Z) :
  (exists s e, representable h days_back days_ahead s e)
  \/ (forall s e, ~ representable h days_back days_ahead s e).
Proof.
  unfold representable.
  destruct (Z_le_gt_dec (Z.abs days_back) max_delta_days) as [Hb|Hb];
    [|right; intros s e H; lia].
  destruct (Z_le_gt_dec (Z.abs days_ahead) max_delta_days) as [Ha|Ha];
    [|right; intros s e H; lia].
  destruct (datetime_ok (wall_clock h 0 - days_back * us_per_day)) eqn:Es;
    [|right; intros s e H; decompose [and] H; discriminate].
  destruct (datetime_ok (wall_clock h 0 + days_ahead * us_per_day)) eqn:Ee;
    [|right; intros s e H; decompose [and] H; discriminate].
  destruct (local_timestamp h (wall_clock h 0 - days_back * us_per_day))
    as [exc|s] eqn:Ets; [right; intros s e H; decompose [and] H; discriminate|].
  destruct (local_timestamp h (wall_clock h 0 + days_ahead * us_per_day))
    as [exc|e] eqn:Ete; [right; intros s' e H; decompose [and] H; discriminate|].
  left. exists s, e. repeat split; assumption.
Qed.

(** The arguments as [sys.argv[1]], [sys.argv[2]] and [sys.argv[3]] give them. *)
Lemma argv_shape (argv : list string) (calendar_name arg2 arg3 : string) :
  nth_error argv 1 = Some calendar_name ->
  nth_error argv 2 = Some arg2 ->
  nth_error argv 3 = Some arg3 ->
  exists prog rest, argv = prog :: calendar_name :: arg2 :: arg3 :: rest.
Proof.
  destruct argv as [|prog [|a1 [|a2 [|a3 rest]]]]; simpl; try discriminate.
  intros [= ->] [= ->] [= ->]. now exists prog, rest.
Qed.

(** A run that exits with status 0 took the whole path. *)
Lemma run_status_0 (h : Host) (argv : list string) :
  run_status (python3 h argv) = 0 ->
  exists prog calendar_name arg2 arg3 rest days_back days_ahead target_cal s e,
    argv = prog :: calendar_name :: arg2 :: arg3 :: rest
    /\ py_int arg2 = Some days_back
    /\ py_int arg3 = Some days_ahead
    /\ find_calendar calendar_name (store_calendars (host_store h)) = Some target_cal
    /\ representable h days_back days_ahead s e.
Proof.
  intros H0.
  destruct (Nat.lt_ge_cases (length argv) 4) as [Hlen|Hlen].
  { rewrite (run_usage h argv Hlen) in H0. discriminate. }
  destruct argv as [|prog [|calendar_name [|arg2 [|arg3 rest]]]];
    simpl in Hlen; try lia.
  destruct (py_int arg2) as [days_back|] eqn:E2.
  2:{ rewrite run_bad_int in H0 by auto. discriminate. }
  destruct (py_int arg3) as [days_ahead|] eqn:E3.
  2:{ rewrite run_bad_int in H0 by auto. discriminate. }
  destruct (find_calendar calendar_name (store_calendars (host_store h)))
    as [target_cal|] eqn:Ef.
  2:{ rewrite (run_not_found h _ _ _ _ _ _ _ E2 E3 Ef) in H0. discriminate. }
  destruct (representable_dec h days_back days_ahead) as [(s & e & Hr)|Hno].
  - exists prog, calendar_name, arg2, arg3, rest, days_back, days_ahead,
      target_cal, s, e. repeat split; try assumption; apply Hr.
  - destruct (run_found_raises h prog _ _ _ rest _ _ _ E2 E3 Ef Hno) as [exc Hrun].
    rewrite Hrun in H0. discriminate.
Qed.


(** ** Arguments *)

(** C5. With fewer than three arguments after the script's name, the run
    writes the usage line to standard error and nothing to standard output,
    and exits with status 1 (by [sys.exit], with no traceback and before
    any call to the store). *)
Theorem usage_on_missing_arguments (h : Host) (argv : list string) :
  (length (tl argv) < 3)%nat ->
  python3 h argv
  = {| run_stdout := "";
       run_stderr :=
         "Usage: fetch-events.py <calendar_name> <days_back> <days_ahead>"
         ++ newline;
       run_traceback := None;
       run_status := 1;
       run_calls := [];
       run_clock_reads := 0 |}.
Proof.
  intros Hlen. apply run_usage.
  destruct argv as [|prog args]; simpl in *; lia.
Qed.

(** C6. When [sys.argv[2]] or [sys.argv[3]] is not an integer for [int],
    the [ValueError] is caught by nobody: the run ends on its traceback with
    status 1, having written nothing itself (no JSON on standard output) and
    before the store is created, asked for access or queried. *)
Theorem invalid_integer_uncaught (h : Host) (argv : list string)
    (arg2 arg3 : string) :
  nth_error argv 2 = Some arg2 ->
  nth_error argv 3 = Some arg3 ->
  py_int arg2 = None \/ py_int arg3 = None ->
  python3 h argv
  = {| run_stdout := "";
       run_stderr := "";
       run_traceback := Some ValueError;
       run_status := 1;
       run_calls := [];
       run_clock_reads := 0 |}.
Proof.
  intros H2 H3 Hbad.
  destruct argv as [|prog [|calendar_name rest]]; try discriminate.
  destruct (argv_shape (prog :: calendar_name :: rest) calendar_name arg2 arg3
              eq_refl H2 H3) as (prog' & rest' & ->).
  now apply run_bad_int.
Qed.

(** ** Calendar lookup *)

(** C3. The lookup returns a calendar exactly when the store's list splits
    into calendars of other titles, then that calendar, whose title is the
    requested name character for character, then the rest: the first
    calendar of that title in the store's order, whatever follows it. *)
Theorem first_title_match_wins (calendar_name : string)
    (calendars : list EKCalendar) (target_cal : EKCalendar) :
  find_calendar calendar_name calendars = Some target_cal
  <-> exists before after,
        calendars = (before ++ target_cal :: after)%list
        /\ cal_title target_cal = Some calendar_name
        /\ forall cal, In cal before -> cal_title cal <> Some calendar_name.
Proof.
  rewrite find_calendar_some.
  split; intros (before & after & Hsplit & Htitle & Hbefore);
    exists before, after; repeat split; try assumption.
  - now apply Forall_forall.
  - now apply Forall_forall.
Qed.

(** C1, as amended. When the three arguments are there, the two numbers
    are integers for [int], and no calendar of the store has the requested
    name as its title, the run prints the one JSON object
    [{error: Calendar '<name>' not found}] and nothing else, and exits with
    status 1, after the lookup and before any clock reading or query. *)
Theorem not_found_error (h : Host) (argv : list string)
    (calendar_name arg2 arg3 : string) (days_back days_ahead : Z) :
  nth_error argv 1 = Some calendar_name ->
  nth_error argv 2 = Some arg2 ->
  nth_error argv 3 = Some arg3 ->
  py_int arg2 = Some days_back ->
  py_int arg3 = Some days_ahead ->
  (forall cal, In cal (store_calendars (host_store h)) ->
               cal_title cal <> Some calendar_name) ->
  python3 h argv
  = {| run_stdout :=
         json_dumps
           (JObj [("error", JStr ("Calendar '" ++ calendar_name ++ "' not found"))])
         ++ newline;
       run_stderr := "";
       run_traceback := None;
       run_status := 1;
       run_calls := [StoreInit; RequestAccess; CalendarsForEntityType];
       run_clock_reads := 0 |}.
Proof.
  intros H1 H2 H3 Hback Hahead Hnone.
  destruct (argv_shape argv _ _ _ H1 H2 H3) as (prog & rest & ->).
  apply (run_not_found h prog calendar_name arg2 arg3 rest days_back days_ahead);
    try assumption.
  apply find_calendar_none, Forall_forall. exact Hnone.
Qed.


(** ** The emitted records *)

(** What a run of status 0 printed: the array of the records of the events
    the store gave for the one query of the run, on the calendar found. *)
Lemma run_status_0_output (h : Host) (argv : list string) :
  run_status (python3 h argv) = 0 ->
  exists calendar_name target_cal p,
    nth_error argv 1 = Some calendar_name
    /\ find_calendar calendar_name (store_calendars (host_store h)) = Some target_cal
    /\ pred_calendars p = [target_cal]
    /\ In (EventsMatchingPredicate p) (run_calls (python3 h argv))
    /\ run_stdout (python3 h argv)
       = json_dumps
           (JArr (map (event_record target_cal) (store_events (host_store h) p)))
         ++ newline.
Proof.
  intros H0.
  destruct (run_status_0 h argv H0)
    as (prog & calendar_name & arg2 & arg3 & rest & days_back & days_ahead
        & target_cal & s & e & -> & H2 & H3 & Hfind & Hr).
  rewrite (run_found h prog calendar_name arg2 arg3 rest days_back days_ahead
             target_cal s e H2 H3 Hfind Hr).
  exists calendar_name, target_cal, (query target_cal s e).
  repeat split; try assumption.
  cbn [run_calls]. apply in_or_app. right. right. now left.
Qed.

(** C2. After a run of status 0, standard output is the JSON array of one
    record per event the store returned; each record has the nine keys id,
    title, startDate, endDate, isAllDay, location, notes, url and calendar,
    each with a value, and title, location, notes and url are the empty
    string when the event has none. *)
Theorem records_have_every_key (h : Host) (argv : list string) :
  run_status (python3 h argv) = 0 ->
  exists target_cal p,
    In (EventsMatchingPredicate p) (run_calls (python3 h argv))
    /\ run_stdout (python3 h argv)
       = json_dumps
           (JArr (map (event_record target_cal) (store_events (host_store h) p)))
         ++ newline
    /\ forall event, In event (store_events (host_store h) p) ->
         json_keys (event_record target_cal event)
         = ["id"; "title"; "startDate"; "endDate"; "isAllDay"; "location";
            "notes"; "url"; "calendar"]
         /\ (forall key, In key event_keys ->
               json_get key (event_record target_cal event) <> None)
         /\ (ev_title event = None ->
             json_get "title" (event_record target_cal event) = Some (JStr ""))
         /\ (location event = None ->
             json_get "location" (event_record target_cal event) = Some (JStr ""))
         /\ (notes event = None ->
             json_get "notes" (event_record target_cal event) = Some (JStr ""))
         /\ (URL event = None ->
             json_get "url" (event_record target_cal event) = Some (JStr "")).
Proof.
  intros H0.
  destruct (run_status_0_output h argv H0)
    as (calendar_name & target_cal & p & _ & _ & _ & Hcall & Hout).
  exists target_cal, p. split; [exact Hcall|]. split; [exact Hout|].
  intros event _. split; [reflexivity|]. split.
  - intros key Hkey. unfold event_keys in Hkey. simpl in Hkey.
    repeat (destruct Hkey as [<-|Hkey]; [discriminate|]). contradiction.
  - unfold event_record, json_get; cbn [assoc_get String.eqb Ascii.eqb Bool.eqb].
    repeat split; intros ->; reflexivity.
Qed.

(** C7. After a run of status 0, every record's calendar object has the
    keys id, title and source; id and title are both the requested name,
    which is the title of the calendar found; and the record is the same
    whatever the store identifier of that calendar is. *)
Theorem calendar_id_is_title (h : Host) (argv : list string) :
  run_status (python3 h argv) = 0 ->
  exists calendar_name target_cal p,
    nth_error argv 1 = Some calendar_name
    /\ find_calendar calendar_name (store_calendars (host_store h)) = Some target_cal
    /\ cal_title target_cal = Some calendar_name
    /\ In (EventsMatchingPredicate p) (run_calls (python3 h argv))
    /\ run_stdout (python3 h argv)
       = json_dumps
           (JArr (map (event_record target_cal) (store_events (host_store h) p)))
         ++ newline
    /\ forall event, In event (store_events (host_store h) p) ->
         (exists cal_obj,
            json_get "calendar" (event_record target_cal event) = Some cal_obj
            /\ json_keys cal_obj = ["id"; "title"; "source"]
            /\ json_get "id" cal_obj = Some (JStr calendar_name)
            /\ json_get "title" cal_obj = Some (JStr calendar_name))
         /\ forall identifier,
              event_record (with_identifier identifier target_cal) event
              = event_record target_cal event.
Proof.
  intros H0.
  destruct (run_status_0_output h argv H0)
    as (calendar_name & target_cal & p & Hname & Hfind & _ & Hcall & Hout).
  assert (Htitle : cal_title target_cal = Some calendar_name).
  { apply find_calendar_some in Hfind.
    destruct Hfind as (before & after & _ & Htitle & _). exact Htitle. }
  exists calendar_name, target_cal, p. repeat split; try assumption.
  exists (calendar_record target_cal). split; [reflexivity|].
  unfold calendar_record. rewrite Htitle. repeat split.
Qed.

(** C9. After a run of status 0 on a calendar that has no source, the
    source of every record's calendar object is the string Unknown, where
    an event without title, location or notes gets the empty string. *)
Theorem missing_source_is_unknown (h : Host) (argv : list string) :
  run_status (python3 h argv) = 0 ->
  exists calendar_name target_cal p,
    nth_error argv 1 = Some calendar_name
    /\ find_calendar calendar_name (store_calendars (host_store h)) = Some target_cal
    /\ In (EventsMatchingPredicate p) (run_calls (python3 h argv))
    /\ run_stdout (python3 h argv)
       = json_dumps
           (JArr (map (event_record target_cal) (store_events (host_store h) p)))
         ++ newline
    /\ (cal_source target_cal = None ->
        forall event, In event (store_events (host_store h) p) ->
          (exists cal_obj,
             json_get "calendar" (event_record target_cal event) = Some cal_obj
             /\ json_get "source" cal_obj = Some (JStr "Unknown"))
          /\ (ev_title event = None ->
              json_get "title" (event_record target_cal event) = Some (JStr ""))
          /\ (location event = None ->
              json_get "location" (event_record target_cal event) = Some (JStr ""))
          /\ (notes event = None ->
              json_get "notes" (event_record target_cal event) = Some (JStr ""))).
Proof.
  intros H0.
  destruct (run_status_0_output h argv H0)
    as (calendar_name & target_cal & p & Hname & Hfind & _ & Hcall & Hout).
  exists calendar_name, target_cal, p.
  split; [exact Hname|]. split; [exact Hfind|]. split; [exact Hcall|].
  split; [exact Hout|].
  intros Hsource event _. split.
  - exists (calendar_record target_cal). split; [reflexivity|].
    unfold calendar_record. rewrite Hsource. reflexivity.
  - unfold event_record, json_get; cbn [assoc_get String.eqb Ascii.eqb Bool.eqb].
    repeat split; intros ->; reflexivity.
Qed.


(** ** The window *)

(** The calls of a run whose calendar was found: the lookup alone when the
    date arithmetic raises, the lookup and the one query otherwise. *)
Lemma run_found_calls (h : Host) (prog calendar_name arg2 arg3 : string)
    (rest : list string) (days_back days_ahead : Z) (target_cal : EKCalendar) :
  py_int arg2 = Some days_back ->
  py_int arg3 = Some days_ahead ->
  find_calendar calendar_name (store_calendars (host_store h)) = Some target_cal ->
  run_clock_reads (python3 h (prog :: calendar_name :: arg2 :: arg3 :: rest)) = 1%nat
  /\ run_stderr (python3 h (prog :: calendar_name :: arg2 :: arg3 :: rest)) = ""
  /\ ((exists exc,
         run_traceback (python3 h (prog :: calendar_name :: arg2 :: arg3 :: rest))
         = Some exc
         /\ run_calls (python3 h (prog :: calendar_name :: arg2 :: arg3 :: rest))
            = lookup_calls)
      \/ (exists s e,
            representable h days_back days_ahead s e
            /\ run_traceback (python3 h (prog :: calendar_name :: arg2 :: arg3 :: rest))
               = None
            /\ run_status (python3 h (prog :: calendar_name :: arg2 :: arg3 :: rest))
               = 0
            /\ run_calls (python3 h (prog :: calendar_name :: arg2 :: arg3 :: rest))
               = (lookup_calls
                  ++ [PredicateForEvents (query target_cal s e);
                      EventsMatchingPredicate (query target_cal s e)])%list)).
Proof.
  intros H2 H3 Hfind.
  destruct (representable_dec h days_back days_ahead) as [(s & e & Hr)|Hno].
  - rewrite (run_found h prog calendar_name arg2 arg3 rest days_back days_ahead
               target_cal s e H2 H3 Hfind Hr).
    repeat split. right. exists s, e. repeat split; try apply Hr.
  - destruct (run_found_raises h prog calendar_name arg2 arg3 rest days_back
                days_ahead target_cal H2 H3 Hfind Hno) as [exc ->].
    repeat split. left. exists exc. split; reflexivity.
Qed.

(** C4. With integers [days_back] and [days_ahead] read from the
    arguments, the clock is read at most once, and every predicate the run
    builds or queries with has for bounds the timestamps of
    [now - days_back] days and [now + days_ahead] days, [now] being that one
    reading.  When the calendar is found and the date arithmetic goes
    through, the run reads the clock once and makes exactly that query. *)
Theorem query_window (h : Host) (argv : list string)
    (calendar_name arg2 arg3 : string) (days_back days_ahead : Z) :
  nth_error argv 1 = Some calendar_name ->
  nth_error argv 2 = Some arg2 ->
  nth_error argv 3 = Some arg3 ->
  py_int arg2 = Some days_back ->
  py_int arg3 = Some days_ahead ->
  let now := wall_clock h 0 in
  let start_date := now - days_back * us_per_day in
  let end_date := now + days_ahead * us_per_day in
  (run_clock_reads (python3 h argv) <= 1)%nat
  /\ (forall p,
        In (PredicateForEvents p) (run_calls (python3 h argv))
        \/ In (EventsMatchingPredicate p) (run_calls (python3 h argv)) ->
        local_timestamp h start_date = inr (timeIntervalSince1970 (pred_start p))
        /\ local_timestamp h end_date = inr (timeIntervalSince1970 (pred_end p)))
  /\ (forall target_cal s e,
        find_calendar calendar_name (store_calendars (host_store h)) = Some target_cal ->
        representable h days_back days_ahead s e ->
        local_timestamp h start_date = inr s
        /\ local_timestamp h end_date = inr e
        /\ run_clock_reads (python3 h argv) = 1%nat
        /\ run_calls (python3 h argv)
           = [StoreInit; RequestAccess; CalendarsForEntityType;
              PredicateForEvents (query target_cal s e);
              EventsMatchingPredicate (query target_cal s e)]).
Proof.
  intros H1 H2 H3 Hback Hahead now start_date end_date.
  destruct (argv_shape argv _ _ _ H1 H2 H3) as (prog & rest & ->).
  destruct (find_calendar calendar_name (store_calendars (host_store h)))
    as [target_cal|] eqn:Hfind.
  - destruct (run_found_calls h prog calendar_name arg2 arg3 rest days_back
                days_ahead target_cal Hback Hahead Hfind)
      as (Hreads & _ & [(exc & _ & Hcalls)|(s & e & Hr & _ & _ & Hcalls)]).
    + rewrite Hreads, Hcalls. split; [lia|]. split.
      * intros p [Hin|Hin]; simpl in Hin;
          repeat (destruct Hin as [Hin|Hin]; [discriminate|]); contradiction.
      * intros target_cal' s e [= <-] Hr. exfalso.
        rewrite (run_found h prog calendar_name arg2 arg3 rest days_back
                   days_ahead target_cal s e Hback Hahead Hfind Hr) in Hcalls.
        discriminate.
    + rewrite Hreads, Hcalls. split; [lia|].
      pose proof Hr as (_ & _ & _ & _ & Hs & He). split.
      * intros p [Hin|Hin]; simpl in Hin;
          repeat (destruct Hin as [Hin|Hin];
                  [first [discriminate | injection Hin as <-]|]);
          try contradiction; simpl; split; assumption.
      * intros target_cal' s' e' [= <-] (_ & _ & _ & _ & Hs' & He').
        fold start_date in Hs, Hs'. fold end_date in He, He'.
        assert (s' = s) as -> by congruence.
        assert (e' = e) as -> by congruence.
        repeat split; assumption.
  - rewrite (run_not_found h prog calendar_name arg2 arg3 rest days_back
               days_ahead Hback Hahead Hfind).
    cbn [run_clock_reads run_calls]. split; [lia|]. split.
    + intros p [Hin|Hin]; simpl in Hin;
        repeat (destruct Hin as [Hin|Hin]; [discriminate|]); contradiction.
    + intros target_cal s e Hsome. discriminate.
Qed.


(** C10. Nothing in the script looks at the sign of the two integers.
    Once the calendar is found, whatever integers [int] read, the script
    writes nothing to standard error and does not exit by itself: the run
    has status 0 unless an exception of the date library ended it.  When
    that arithmetic goes through, the run has status 0 and queries the
    window from [now - days_back] days to [now + days_ahead] days; and that
    window ends before it starts exactly when [days_back + days_ahead] is
    negative. *)
Theorem no_sign_check (h : Host) (argv : list string)
    (calendar_name arg2 arg3 : string) (days_back days_ahead : Z)
    (target_cal : EKCalendar) :
  nth_error argv 1 = Some calendar_name ->
  nth_error argv 2 = Some arg2 ->
  nth_error argv 3 = Some arg3 ->
  py_int arg2 = Some days_back ->
  py_int arg3 = Some days_ahead ->
  find_calendar calendar_name (store_calendars (host_store h)) = Some target_cal ->
  let now := wall_clock h 0 in
  let start_date := now - days_back * us_per_day in
  let end_date := now + days_ahead * us_per_day in
  run_stderr (python3 h argv) = ""
  /\ (run_traceback (python3 h argv) = None -> run_status (python3 h argv) = 0)
  /\ (forall s e,
        representable h days_back days_ahead s e ->
        run_status (python3 h argv) = 0
        /\ run_traceback (python3 h argv) = None
        /\ local_timestamp h start_date = inr s
        /\ local_timestamp h end_date = inr e
        /\ run_calls (python3 h argv)
           = [StoreInit; RequestAccess; CalendarsForEntityType;
              PredicateForEvents (query target_cal s e);
              EventsMatchingPredicate (query target_cal s e)])
  /\ (end_date < start_date <-> days_back + days_ahead < 0).
Proof.
  intros H1 H2 H3 Hback Hahead Hfind now start_date end_date.
  destruct (argv_shape argv _ _ _ H1 H2 H3) as (prog & rest & ->).
  destruct (run_found_calls h prog calendar_name arg2 arg3 rest days_back
              days_ahead target_cal Hback Hahead Hfind)
    as (_ & Herr & Hcases).
  split; [exact Herr|]. split; [|split].
  - destruct Hcases as [(exc & Htb & _)|(s & e & _ & _ & H0 & _)].
    + rewrite Htb. discriminate.
    + intros _. exact H0.
  - intros s e Hr.
    rewrite (run_found h prog calendar_name arg2 arg3 rest days_back
               days_ahead target_cal s e Hback Hahead Hfind Hr).
    destruct Hr as (_ & _ & _ & _ & Hs & He). repeat split; assumption.
  - unfold start_date, end_date, us_per_day. lia.
Qed.

(** ** The access request *)

(** C8. The completion callback changes nothing and returns; and two runs
    that differ only in what the framework hands to it (granted or not,
    with or without an error, or nothing at all) are the same run: same
    output, same status, same calls. *)
Theorem access_reply_ignored (h : Host) (argv : list string)
    (reply1 reply2 : option (bool * option NSError)) :
  (forall granted error p, access_callback granted error p = (p, Normal tt))
  /\ python3 (with_reply reply1 h) argv = python3 (with_reply reply2 h) argv.
Proof.
  split; [reflexivity|].
  unfold python3. f_equal.
  unfold main, requestAccessToEntityType_completion_, EKEventStore_alloc_init.
  destruct reply1 as [[granted1 error1]|], reply2 as [[granted2 error2]|];
    reflexivity.
Qed.

(** ** The run as a whole *)

(** Every run takes one of five paths. *)
Lemma run_cases (h : Host) (argv : list string) :
  (length argv < 4)%nat
  \/ exists prog calendar_name arg2 arg3 rest,
       argv = prog :: calendar_name :: arg2 :: arg3 :: rest
       /\ ((py_int arg2 = None \/ py_int arg3 = None)
           \/ exists days_back days_ahead,
                py_int arg2 = Some days_back
                /\ py_int arg3 = Some days_ahead
                /\ (find_calendar calendar_name (store_calendars (host_store h)) = None
                    \/ exists target_cal,
                         find_calendar calendar_name (store_calendars (host_store h))
                         = Some target_cal
                         /\ ((forall s e, ~ representable h days_back days_ahead s e)
                             \/ exists s e,
                                  representable h days_back days_ahead s e))).
Proof.
  destruct (Nat.lt_ge_cases (length argv) 4) as [Hlen|Hlen]; [now left|right].
  destruct argv as [|prog [|calendar_name [|arg2 [|arg3 rest]]]];
    simpl in Hlen; try lia.
  exists prog, calendar_name, arg2, arg3, rest. split; [reflexivity|].
  destruct (py_int arg2) as [days_back|]; [|now left; left].
  destruct (py_int arg3) as [days_ahead|]; [|now left; right].
  right. exists days_back, days_ahead. split; [reflexivity|]. split; [reflexivity|].
  destruct (find_calendar calendar_name (store_calendars (host_store h)))
    as [target_cal|]; [right|now left].
  exists target_cal. split; [reflexivity|].
  destruct (representable_dec h days_back days_ahead) as [Hyes|Hno];
    [now right|now left].
Qed.

(** X1. The conversion loop gives one record per event, in the order of
    the events: the record at each index is the record of the event at that
    index. *)
Theorem convert_keeps_order (target_cal : EKCalendar) (events : list EKEvent) :
  length (convert target_cal events) = length events
  /\ forall i,
       nth_error (convert target_cal events) i
       = option_map (event_record target_cal) (nth_error events i).
Proof.
  rewrite convert_map. split.
  - apply length_map.
  - intros i. apply nth_error_map.
Qed.



(** X4. The script writes to standard error in the argument-count case and
    in no other: standard error is empty exactly when [sys.argv] has at
    least four entries. *)
Theorem stderr_only_for_usage (h : Host) (argv : list string) :
  run_stderr (python3 h argv) = "" <-> (4 <= length argv)%nat.
Proof.
  destruct (run_cases h argv)
    as [Hlen|(prog & calendar_name & arg2 & arg3 & rest & -> &
              [Hbad|(days_back & days_ahead & H2 & H3 &
                     [Hnone|(target_cal & Hfind & [Hno|(s & e & Hr)])])])].
  - rewrite (run_usage h argv Hlen). cbn [run_stderr]. split.
    + unfold usage. simpl. discriminate.
    + lia.
  - rewrite (run_bad_int h _ _ _ _ _ Hbad). simpl. split; [lia|reflexivity].
  - rewrite (run_not_found h _ _ _ _ _ _ _ H2 H3 Hnone). simpl.
    split; [lia|reflexivity].
  - destruct (run_found_raises h prog _ _ _ rest _ _ _ H2 H3 Hfind Hno)
      as [exc ->]. simpl. split; [lia|reflexivity].
  - rewrite (run_found h _ _ _ _ _ _ _ _ _ _ H2 H3 Hfind Hr). simpl.
    split; [lia|reflexivity].
Qed.

(** X5. A query comes last in a run, right after its predicate was built
    and with nothing else after the lookup; it is on one calendar only, the
    one the lookup found for the requested name. *)
Theorem query_is_scoped (h : Host) (argv : list string) (p : NSPredicate) :
  In (EventsMatchingPredicate p) (run_calls (python3 h argv)) ->
  exists calendar_name target_cal,
    nth_error argv 1 = Some calendar_name
    /\ find_calendar calendar_name (store_calendars (host_store h)) = Some target_cal
    /\ cal_title target_cal = Some calendar_name
    /\ pred_calendars p = [target_cal]
    /\ run_calls (python3 h argv)
       = [StoreInit; RequestAccess; CalendarsForEntityType;
          PredicateForEvents p; EventsMatchingPredicate p].
Proof.
  intros Hin.
  destruct (run_cases h argv)
    as [Hlen|(prog & calendar_name & arg2 & arg3 & rest & -> &
              [Hbad|(days_back & days_ahead & H2 & H3 &
                     [Hnone|(target_cal & Hfind & [Hno|(s & e & Hr)])])])].
  - rewrite (run_usage h argv Hlen) in Hin. contradiction.
  - rewrite (run_bad_int h _ _ _ _ _ Hbad) in Hin. contradiction.
  - rewrite (run_not_found h _ _ _ _ _ _ _ H2 H3 Hnone) in Hin. simpl in Hin.
    repeat (destruct Hin as [Hin|Hin]; [discriminate|]). contradiction.
  - destruct (run_found_raises h prog _ _ _ rest _ _ _ H2 H3 Hfind Hno)
      as [exc Hrun]. rewrite Hrun in Hin. simpl in Hin.
    repeat (destruct Hin as [Hin|Hin]; [discriminate|]). contradiction.
  - rewrite (run_found h _ _ _ _ _ _ _ _ _ _ H2 H3 Hfind Hr) in Hin |- *.
    simpl in Hin.
    repeat (destruct Hin as [Hin|Hin];
            [first [discriminate | injection Hin as <-]|]);
      try contradiction.
    exists calendar_name, target_cal. repeat split; try assumption.
    apply find_calendar_some in Hfind.
    destruct Hfind as (before & after & _ & Htitle & _). exact Htitle.
Qed.

(** X6. The script's name and any argument after the third play no part:
    two argument lists with the same first three arguments give the same
    run. *)
Theorem extra_arguments_ignored (h : Host) (prog prog' : string)
    (calendar_name arg2 arg3 : string) (rest rest' : list string) :
  python3 h (prog :: calendar_name :: arg2 :: arg3 :: rest)
  = python3 h (prog' :: calendar_name :: arg2 :: arg3 :: rest').
Proof.
  unfold python3, main, argv_at.
  cbn [length nth_error Nat.ltb Nat.leb]. reflexivity.
Qed.



(** X8. When the two integers are opposite ([0] and [0], or [-3] and [3]),
    the window is an instant: every predicate of the run has the same date
    for both bounds. *)
Theorem opposite_days_give_an_instant (h : Host) (argv : list string)
    (arg2 arg3 : string) (days_back days_ahead : Z) (p : NSPredicate) :
  nth_error argv 2 = Some arg2 ->
  nth_error argv 3 = Some arg3 ->
  py_int arg2 = Some days_back ->
  py_int arg3 = Some days_ahead ->
  days_back + days_ahead = 0 ->
  In (PredicateForEvents p) (run_calls (python3 h argv))
  \/ In (EventsMatchingPredicate p) (run_calls (python3 h argv)) ->
  pred_start p = pred_end p
  /\ local_timestamp h (wall_clock h 0 + days_ahead * us_per_day)
     = inr (timeIntervalSince1970 (pred_start p)).
Proof.
  intros H2 H3 Hback Hahead Hsum Hin.
  destruct argv as [|prog [|calendar_name rest]]; try discriminate.
  destruct (argv_shape (prog :: calendar_name :: rest) calendar_name arg2 arg3
              eq_refl H2 H3) as (prog' & rest' & Heq).
  rewrite Heq in Hin. clear Heq.
  destruct (find_calendar calendar_name (store_calendars (host_store h)))
    as [target_cal|] eqn:Hfind.
  - destruct (run_found_calls h prog' calendar_name arg2 arg3 rest' days_back
                days_ahead target_cal Hback Hahead Hfind)
      as (_ & _ & [(exc & _ & Hcalls)|(s & e & Hr & _ & _ & Hcalls)]);
      rewrite Hcalls in Hin.
    + destruct Hin as [Hin|Hin]; simpl in Hin;
        repeat (destruct Hin as [Hin|Hin]; [discriminate|]); contradiction.
    + destruct Hr as (_ & _ & _ & _ & Hs & He).
      replace (wall_clock h 0 - days_back * us_per_day)
        with (wall_clock h 0 + days_ahead * us_per_day) in Hs by lia.
      assert (s = e) as <- by congruence.
      destruct Hin as [Hin|Hin]; simpl in Hin;
        repeat (destruct Hin as [Hin|Hin];
                [first [discriminate | injection Hin as <-]|]);
        try contradiction; (split; [reflexivity|exact Hs]).
  - rewrite (run_not_found h prog' calendar_name arg2 arg3 rest' days_back
               days_ahead Hback Hahead Hfind) in Hin.
    destruct Hin as [Hin|Hin]; simpl in Hin;
      repeat (destruct Hin as [Hin|Hin]; [discriminate|]); contradiction.
Qed.

Lemma find_calendar_stops (calendar_name : string)
    (before after : list EKCalendar) (cal : EKCalendar) :
  cal_title cal = Some calendar_name ->
  find_calendar calendar_name (before ++ cal :: after)
  = find_calendar calendar_name (before ++ [cal]).
Proof.
  intros Htitle. apply title_is_true in Htitle.
  induction before as [|b before IH]; simpl.
  - now rewrite Htitle.
  - destruct (title_is b calendar_name); [reflexivity|exact IH].
Qed.

(** X9. The calendars the store lists after a calendar of the requested
    title never matter, whether they have that title too or not: the run is
    the same as if the list ended there. *)
Theorem later_calendars_ignored (h : Host) (argv : list string)
    (calendar_name : string) (before after : list EKCalendar)
    (cal : EKCalendar) :
  nth_error argv 1 = Some calendar_name ->
  cal_title cal = Some calendar_name ->
  python3 (with_calendars (before ++ cal :: after) h) argv
  = python3 (with_calendars (before ++ [cal]) h) argv.
Proof.
  intros Hname Htitle.
  destruct (Nat.lt_ge_cases (length argv) 4) as [Hlen|Hlen].
  { now rewrite !(run_usage _ argv Hlen). }
  destruct argv as [|prog [|name [|arg2 [|arg3 rest]]]];
    simpl in Hlen; try lia.
  injection Hname as ->.
  step.
  cbn [with_calendars host_store store_calendars store_events access_reply
       wall_clock local_timestamp].
  rewrite (find_calendar_stops calendar_name before after cal Htitle).
  reflexivity.
Qed.

(** X10. Standard output holds at most one JSON value.  It is empty, or
    it is the line of the not-found object and the status is 1, or it is
    the line of an array and the status is 0. *)
Theorem at_most_one_json_value (h : Host) (argv : list string) :
  run_stdout (python3 h argv) = ""
  \/ (exists calendar_name,
        nth_error argv 1 = Some calendar_name
        /\ run_status (python3 h argv) = 1
        /\ run_stdout (python3 h argv)
           = json_dumps
               (JObj [("error",
                       JStr ("Calendar '" ++ calendar_name ++ "' not found"))])
             ++ newline)
  \/ (exists items,
        run_status (python3 h argv) = 0
        /\ run_stdout (python3 h argv) = json_dumps (JArr items) ++ newline).
Proof.
  destruct (run_cases h argv)
    as [Hlen|(prog & calendar_name & arg2 & arg3 & rest & -> &
              [Hbad|(days_back & days_ahead & H2 & H3 &
                     [Hnone|(target_cal & Hfind & [Hno|(s & e & Hr)])])])].
  - rewrite (run_usage h argv Hlen). now left.
  - rewrite (run_bad_int h _ _ _ _ _ Hbad). now left.
  - rewrite (run_not_found h _ _ _ _ _ _ _ H2 H3 Hnone).
    right; left. exists calendar_name. repeat split.
  - destruct (run_found_raises h prog _ _ _ rest _ _ _ H2 H3 Hfind Hno)
      as [exc ->]. now left.
  - rewrite (run_found h _ _ _ _ _ _ _ _ _ _ H2 H3 Hfind Hr).
    right; right. eexists. split; reflexivity.
Qed.

End Properties.

(** * The script on the demo host *)

#[local] Existing Instance Sample.lib.

Lemma usage_on_missing_arguments_witness :
  (length (tl Demo.argv_short) < 3)%nat
  /\ python3 Demo.host Demo.argv_short
     = {| run_stdout := "";
          run_stderr :=
            "Usage: fetch-events.py <calendar_name> <days_back> <days_ahead>"
            ++ newline;
          run_traceback := None;
          run_status := 1;
          run_calls := [];
          run_clock_reads := 0 |}.
Proof.
  assert (Hlen : (length (tl Demo.argv_short) < 3)%nat)
    by (apply Nat.ltb_lt; reflexivity).
  split; [exact Hlen|].
  exact (usage_on_missing_arguments Demo.host Demo.argv_short Hlen).
Defined.

Lemma invalid_integer_uncaught_witness :
  (nth_error Demo.argv_bad_int 2 = Some "abc"
   /\ nth_error Demo.argv_bad_int 3 = Some "1"
   /\ py_int "abc" = None)
  /\ python3 Demo.host Demo.argv_bad_int
     = {| run_stdout := "";
          run_stderr := "";
          run_traceback := Some ValueError;
          run_status := 1;
          run_calls := [];
          run_clock_reads := 0 |}.
Proof.
  split; [repeat split|].
  exact (invalid_integer_uncaught Demo.host Demo.argv_bad_int "abc" "1"
           eq_refl eq_refl (or_introl eq_refl)).
Defined.

Lemma demo_has_no_calendar_nope :
  forall cal, In cal (store_calendars (host_store Demo.host)) ->
              cal_title cal <> Some "Nope".
Proof.
  intros cal [<-|[<-|[<-|[]]]]; discriminate.
Defined.

Lemma not_found_error_witness :
  (nth_error Demo.argv_unknown 1 = Some "Nope"
   /\ py_int "7" = Some 7
   /\ py_int "14" = Some 14
   /\ forall cal, In cal (store_calendars (host_store Demo.host)) ->
                  cal_title cal <> Some "Nope")
  /\ python3 Demo.host Demo.argv_unknown
     = {| run_stdout :=
            json_dumps (JObj [("error", JStr "Calendar 'Nope' not found")])
            ++ newline;
          run_stderr := "";
          run_traceback := None;
          run_status := 1;
          run_calls := [StoreInit; RequestAccess; CalendarsForEntityType];
          run_clock_reads := 0 |}.
Proof.
  split; [repeat split; exact demo_has_no_calendar_nope|].
  exact (not_found_error Demo.host Demo.argv_unknown "Nope" "7" "14" 7 14
           eq_refl eq_refl eq_refl eq_refl eq_refl demo_has_no_calendar_nope).
Defined.

(** C1, as it was stated, fails here: no calendar is titled Nope, yet the
    run prints no JSON object, because [int] fails on the second argument
    before the store is looked at. *)
Lemma not_found_needs_integers :
  (forall cal, In cal (store_calendars (host_store Demo.host)) ->
               cal_title cal <> Some "Nope")
  /\ nth_error Demo.argv_bad_int 1 = Some "Nope"
  /\ run_stdout (python3 Demo.host Demo.argv_bad_int) = ""
  /\ run_traceback (python3 Demo.host Demo.argv_bad_int) = Some ValueError
  /\ run_stdout (python3 Demo.host Demo.argv_bad_int)
     <> json_dumps (JObj [("error", JStr "Calendar 'Nope' not found")]) ++ newline.
Proof.
  split; [exact demo_has_no_calendar_nope|].
  repeat split. intros H. vm_compute in H. discriminate H.
Qed.

(** The text of that object, written out. *)
Example not_found_text :
  let q := Sample.dquote in
  run_stdout (python3 Demo.host Demo.argv_unknown)
  = "{" ++ q ++ "error" ++ q ++ ": " ++ q ++ "Calendar 'Nope' not found" ++ q
    ++ "}" ++ newline.
Proof. reflexivity. Qed.

Lemma demo_run_status : run_status (python3 Demo.host Demo.argv) = 0.
Proof. reflexivity. Defined.

Lemma records_have_every_key_witness :
  run_status (python3 Demo.host Demo.argv) = 0
  /\ exists target_cal p,
       In (EventsMatchingPredicate p) (run_calls (python3 Demo.host Demo.argv))
       /\ run_stdout (python3 Demo.host Demo.argv)
          = json_dumps
              (JArr (map (event_record target_cal)
                       (store_events (host_store Demo.host) p)))
            ++ newline
       /\ forall event, In event (store_events (host_store Demo.host) p) ->
            json_keys (event_record target_cal event)
            = ["id"; "title"; "startDate"; "endDate"; "isAllDay"; "location";
               "notes"; "url"; "calendar"]
            /\ (forall key, In key event_keys ->
                  json_get key (event_record target_cal event) <> None)
            /\ (ev_title event = None ->
                json_get "title" (event_record target_cal event) = Some (JStr ""))
            /\ (location event = None ->
                json_get "location" (event_record target_cal event) = Some (JStr ""))
            /\ (notes event = None ->
                json_get "notes" (event_record target_cal event) = Some (JStr ""))
            /\ (URL event = None ->
                json_get "url" (event_record target_cal event) = Some (JStr "")).
Proof.
  split; [exact demo_run_status|].
  exact (records_have_every_key Demo.host Demo.argv demo_run_status).
Defined.

Lemma calendar_id_is_title_witness :
  run_status (python3 Demo.host Demo.argv) = 0
  /\ exists calendar_name target_cal p,
       nth_error Demo.argv 1 = Some calendar_name
       /\ find_calendar calendar_name (store_calendars (host_store Demo.host))
          = Some target_cal
       /\ cal_title target_cal = Some calendar_name
       /\ In (EventsMatchingPredicate p) (run_calls (python3 Demo.host Demo.argv))
       /\ run_stdout (python3 Demo.host Demo.argv)
          = json_dumps
              (JArr (map (event_record target_cal)
                       (store_events (host_store Demo.host) p)))
            ++ newline
       /\ forall event, In event (store_events (host_store Demo.host) p) ->
            (exists cal_obj,
               json_get "calendar" (event_record target_cal event) = Some cal_obj
               /\ json_keys cal_obj = ["id"; "title"; "source"]
               /\ json_get "id" cal_obj = Some (JStr calendar_name)
               /\ json_get "title" cal_obj = Some (JStr calendar_name))
            /\ forall identifier,
                 event_record (with_identifier identifier target_cal) event
                 = event_record target_cal event.
Proof.
  split; [exact demo_run_status|].
  exact (calendar_id_is_title Demo.host Demo.argv demo_run_status).
Defined.

Lemma missing_source_is_unknown_witness :
  (run_status (python3 Demo.host Demo.argv) = 0
   /\ find_calendar "Work" (store_calendars (host_store Demo.host)) = Some Demo.work
   /\ cal_source Demo.work = None)
  /\ exists calendar_name target_cal p,
       nth_error Demo.argv 1 = Some calendar_name
       /\ find_calendar calendar_name (store_calendars (host_store Demo.host))
          = Some target_cal
       /\ In (EventsMatchingPredicate p) (run_calls (python3 Demo.host Demo.argv))
       /\ run_stdout (python3 Demo.host Demo.argv)
          = json_dumps
              (JArr (map (event_record target_cal)
                       (store_events (host_store Demo.host) p)))
            ++ newline
       /\ (cal_source target_cal = None ->
           forall event, In event (store_events (host_store Demo.host) p) ->
             (exists cal_obj,
                json_get "calendar" (event_record target_cal event) = Some cal_obj
                /\ json_get "source" cal_obj = Some (JStr "Unknown"))
             /\ (ev_title event = None ->
                 json_get "title" (event_record target_cal event) = Some (JStr ""))
             /\ (location event = None ->
                 json_get "location" (event_record target_cal event)
                 = Some (JStr ""))
             /\ (notes event = None ->
                 json_get "notes" (event_record target_cal event) = Some (JStr ""))).
Proof.
  split; [repeat split|].
  exact (missing_source_is_unknown Demo.host Demo.argv demo_run_status).
Defined.

Lemma demo_representable :
  representable Demo.host 7 14 1793179800 1794994200.
Proof.
  unfold representable.
  repeat split; try reflexivity; apply Z.leb_le; reflexivity.
Defined.

Lemma query_window_witness :
  (nth_error Demo.argv 1 = Some "Work"
   /\ nth_error Demo.argv 2 = Some "7"
   /\ nth_error Demo.argv 3 = Some "14"
   /\ py_int "7" = Some 7
   /\ py_int "14" = Some 14
   /\ find_calendar "Work" (store_calendars (host_store Demo.host)) = Some Demo.work
   /\ representable Demo.host 7 14 1793179800 1794994200)
  /\ local_timestamp Demo.host (wall_clock Demo.host 0 - 7 * us_per_day)
     = inr 1793179800
  /\ local_timestamp Demo.host (wall_clock Demo.host 0 + 14 * us_per_day)
     = inr 1794994200
  /\ run_clock_reads (python3 Demo.host Demo.argv) = 1%nat
  /\ run_calls (python3 Demo.host Demo.argv)
     = [StoreInit; RequestAccess; CalendarsForEntityType;
        PredicateForEvents (query Demo.work 1793179800 1794994200);
        EventsMatchingPredicate (query Demo.work 1793179800 1794994200)].
Proof.
  split; [repeat split; try reflexivity; apply demo_representable|].
  exact (proj2 (proj2 (query_window Demo.host Demo.argv "Work" "7" "14" 7 14
                         eq_refl eq_refl eq_refl eq_refl eq_refl))
           Demo.work 1793179800 1794994200 eq_refl demo_representable).
Defined.

Lemma demo_reversed_representable :
  representable Demo.host (-3) 1 1794043800 1793871000.
Proof.
  unfold representable.
  repeat split; try reflexivity; apply Z.leb_le; reflexivity.
Defined.

Lemma no_sign_check_witness :
  (nth_error Demo.argv_reversed 2 = Some "-3"
   /\ py_int "-3" = Some (-3)
   /\ py_int "1" = Some 1
   /\ find_calendar "Work" (store_calendars (host_store Demo.host)) = Some Demo.work
   /\ representable Demo.host (-3) 1 1794043800 1793871000)
  /\ (run_status (python3 Demo.host Demo.argv_reversed) = 0
      /\ run_stderr (python3 Demo.host Demo.argv_reversed) = ""
      /\ run_calls (python3 Demo.host Demo.argv_reversed)
         = [StoreInit; RequestAccess; CalendarsForEntityType;
            PredicateForEvents (query Demo.work 1794043800 1793871000);
            EventsMatchingPredicate (query Demo.work 1794043800 1793871000)])
  /\ wall_clock Demo.host 0 + 1 * us_per_day
     < wall_clock Demo.host 0 - (-3) * us_per_day.
Proof.
  pose proof (no_sign_check Demo.host Demo.argv_reversed "Work" "-3" "1" (-3) 1
                Demo.work eq_refl eq_refl eq_refl eq_refl eq_refl eq_refl)
    as (Herr & _ & Hrun & Hreversed).
  destruct (Hrun _ _ demo_reversed_representable) as (H0 & _ & _ & _ & Hcalls).
  split; [repeat split; try reflexivity; apply demo_reversed_representable|].
  split; [repeat split; assumption|].
  apply Hreversed. reflexivity.
Defined.

(** Beyond the range of the date library the run ends on its exception:
    a million days back would be before the year 1, and a thousand million
    days are more than a [timedelta] holds. *)
Example out_of_range_days_back :
  python3 Demo.host ["fetch-events.py"; "Work"; "1000000"; "0"]
  = {| run_stdout := "";
       run_stderr := "";
       run_traceback := Some OverflowError;
       run_status := 1;
       run_calls := lookup_calls;
       run_clock_reads := 1 |}
  /\ run_traceback
       (python3 Demo.host ["fetch-events.py"; "Work"; "0"; "1000000000"])
     = Some OverflowError.
Proof. split; reflexivity. Qed.

(** Titles are compared character for character, and of the two calendars
    titled Work the first is taken. *)
Example lookup_on_demo :
  find_calendar "Work" [Demo.home; Demo.work; Demo.work_again] = Some Demo.work
  /\ find_calendar "work" [Demo.home; Demo.work; Demo.work_again] = None.
Proof. split; reflexivity. Qed.


Lemma demo_query_made :
  In (EventsMatchingPredicate (query Demo.work 1793179800 1794994200))
    (run_calls (python3 Demo.host Demo.argv)).
Proof. right. right. right. right. left. reflexivity. Defined.

Lemma query_is_scoped_witness :
  In (EventsMatchingPredicate (query Demo.work 1793179800 1794994200))
    (run_calls (python3 Demo.host Demo.argv))
  /\ exists calendar_name target_cal,
       nth_error Demo.argv 1 = Some calendar_name
       /\ find_calendar calendar_name (store_calendars (host_store Demo.host))
          = Some target_cal
       /\ cal_title target_cal = Some calendar_name
       /\ pred_calendars (query Demo.work 1793179800 1794994200) = [target_cal]
       /\ run_calls (python3 Demo.host Demo.argv)
          = [StoreInit; RequestAccess; CalendarsForEntityType;
             PredicateForEvents (query Demo.work 1793179800 1794994200);
             EventsMatchingPredicate (query Demo.work 1793179800 1794994200)].
Proof.
  split; [exact demo_query_made|].
  exact (query_is_scoped Demo.host Demo.argv
           (query Demo.work 1793179800 1794994200) demo_query_made).
Defined.

Lemma demo_instant_query_made :
  In (PredicateForEvents (query Demo.work 1794043800 1794043800))
    (run_calls (python3 Demo.host ["fetch-events.py"; "Work"; "-3"; "3"]))
  \/ In (EventsMatchingPredicate (query Demo.work 1794043800 1794043800))
       (run_calls (python3 Demo.host ["fetch-events.py"; "Work"; "-3"; "3"])).
Proof. left. right. right. right. left. reflexivity. Defined.

Lemma opposite_days_give_an_instant_witness :
  (py_int "-3" = Some (-3)
   /\ py_int "3" = Some 3
   /\ -3 + 3 = 0
   /\ (In (PredicateForEvents (query Demo.work 1794043800 1794043800))
         (run_calls (python3 Demo.host ["fetch-events.py"; "Work"; "-3"; "3"]))
       \/ In (EventsMatchingPredicate (query Demo.work 1794043800 1794043800))
            (run_calls
               (python3 Demo.host ["fetch-events.py"; "Work"; "-3"; "3"]))))
  /\ pred_start (query Demo.work 1794043800 1794043800)
     = pred_end (query Demo.work 1794043800 1794043800)
  /\ local_timestamp Demo.host (wall_clock Demo.host 0 + 3 * us_per_day)
     = inr (timeIntervalSince1970
              (pred_start (query Demo.work 1794043800 1794043800))).
Proof.
  split; [repeat split; exact demo_instant_query_made|].
  exact (opposite_days_give_an_instant Demo.host
           ["fetch-events.py"; "Work"; "-3"; "3"] "-3" "3" (-3) 3
           (query Demo.work 1794043800 1794043800)
           eq_refl eq_refl eq_refl eq_refl eq_refl demo_instant_query_made).
Defined.

Lemma later_calendars_ignored_witness :
  (nth_error Demo.argv 1 = Some "Work" /\ cal_title Demo.work = Some "Work")
  /\ python3
       (with_calendars ([Demo.home] ++ Demo.work :: [Demo.work_again]) Demo.host)
       Demo.argv
     = python3 (with_calendars ([Demo.home] ++ [Demo.work]) Demo.host) Demo.argv.
Proof.
  split; [split; reflexivity|].
  exact (later_calendars_ignored Demo.host Demo.argv "Work" [Demo.home]
           [Demo.work_again] Demo.work eq_refl eq_refl).
Defined.
